(** * channelconfig.BundleSource: the atomic holder of the current config bundle

    Embedding of [common/channelconfig/bundlesource.go].  A [BundleSource] is a
    heap object with one field, [bundle], a [sync/atomic.Value]; bundles are
    heap objects reached through [*Bundle] pointers.  Go code that can panic is
    written in a state-and-panic monad over the memory. *)

From stdpp Require Import base option list strings gmap.

(** ** Pointers, interface values and panics *)

Definition loc := positive.

(** A Go pointer: [nil] or the address of an allocated object. *)
Inductive ptr : Type :=
  | NilPtr
  | Addr (l : loc).

Global Instance ptr_eq_dec : EqDecision ptr.
Proof. solve_decision. Defined.

(** Dynamic types an [interface{}] value can carry.  The program only ever
    builds values of dynamic type [*Bundle]; [TOther] stands for every other
    Go type, which [atomic.Value] and the type assertion must still tell
    apart. *)
Inductive dyntype : Type :=
  | TBundlePtr
  | TOther (name : string).

Global Instance dyntype_eq_dec : EqDecision dyntype.
Proof. solve_decision. Defined.

(** An [interface{}] value: the nil interface, a [*Bundle] (possibly a nil
    pointer: a typed nil is not the nil interface), or a value of another
    type. *)
Inductive any : Type :=
  | NilAny
  | BundlePtr (p : ptr)
  | Foreign (name : string).

Definition typeof (x : any) : option dyntype :=
  match x with
  | NilAny => None
  | BundlePtr _ => Some TBundlePtr
  | Foreign name => Some (TOther name)
  end.

Inductive panic : Type :=
  | NilDereference            (* invalid memory address or nil pointer dereference *)
  | StoreOfNil                (* sync/atomic: store of nil value into Value *)
  | StoreInconsistentType     (* sync/atomic: store of inconsistently typed value into Value *)
  | InterfaceConversion.      (* interface conversion: interface {} is not *Bundle *)

Inductive outcome (A : Type) : Type :=
  | Ok (a : A)
  | Panicked (e : panic).
Arguments Ok {A} a.
Arguments Panicked {A} e.

(** ** sync/atomic.Value *)

Module atomic.

(** The zero [Value] holds the nil interface; that is also what [Load]
    returns before the first [Store]. *)
Record Value : Type := mkValue { v : any }.

Definition zero : Value := mkValue NilAny.

Definition Load (x : Value) : any := v x.

(** [Store] panics on the nil interface and on a value whose dynamic type
    differs from the type of the first value stored. *)
Definition Store (x : Value) (val : any) : outcome Value :=
  match typeof val with
  | None => Panicked StoreOfNil
  | Some t =>
      match typeof (v x) with
      | None => Ok (mkValue val)
      | Some t0 =>
          if decide (t0 = t) then Ok (mkValue val)
          else Panicked StoreInconsistentType
      end
  end.

End atomic.

(** The type assertion of [StableBundle]: the loaded interface value is asserted
    to hold a pointer to a Bundle. *)
Definition assert_BundlePtr (x : any) : outcome ptr :=
  match x with
  | BundlePtr p => Ok p
  | _ => Panicked InterfaceConversion
  end.

(** [type BundleSource struct { bundle atomic.Value }] *)
Record BundleSource : Type := mkBundleSource { bundle : atomic.Value }.

(** History of the atomic operations performed on sources.  A ghost
    component: no operation reads it. *)
Inductive event : Type :=
  | EvStore (bs : loc) (val : any)
  | EvLoad (bs : loc).

(** ** The external component types *)

(** Modelled from the spec: the component types ([policies.Manager],
    [msp.MSPManager], the [config/channel] views, [configtxapi.Manager]) and
    the type of [rootConfig] with its four methods are declared outside
    bundlesource.go; the holder treats them as opaque.  The root
    configuration exposes the general channel parameters and three optional
    sub-views; an absent sub-view is the method returning nil, here [None]. *)
Class Components : Type := {
  policies_Manager : Type;
  msp_MSPManager : Type;
  configtxapi_Manager : Type;
  Channel : Type;
  Orderer : Type;
  Consortiums : Type;
  Application : Type;
  Root : Type;
  Root_Channel : Root -> Channel;
  Root_Orderer : Root -> option Orderer;
  Root_Consortiums : Root -> option Consortiums;
  Root_Application : Root -> option Application
}.

(** ** The state-and-panic monad *)

Definition M (S A : Type) : Type := S -> outcome (A * S).

Definition ret {S A} (a : A) : M S A := fun m => Ok (a, m).

Definition bind {S A B} (c : M S A) (k : A -> M S B) : M S B :=
  fun m =>
    match c m with
    | Ok (a, m') => k a m'
    | Panicked e => Panicked e
    end.

Definition lift {S A} (o : outcome A) : M S A :=
  fun m =>
    match o with
    | Ok a => Ok (a, m)
    | Panicked e => Panicked e
    end.

Notation "x <- c ;; k" := (bind c (fun x => k))
  (at level 100, c at next level, right associativity).

(** What a run returned, without the memory it left. *)
Definition result {S A} (o : outcome (A * S)) : outcome A :=
  match o with
  | Ok (a, _) => Ok a
  | Panicked e => Panicked e
  end.

Section ChannelConfig.

Context {C : Components}.

(** Modelled from the spec: the [Bundle] struct is declared in bundle.go; the
    four fields are the ones bundlesource.go reads. *)
Record Bundle : Type := mkBundle {
  policyManager : policies_Manager;
  mspManager : msp_MSPManager;
  rootConfig : Root;
  configtxManager : configtxapi_Manager
}.

(** ** Memory *)

Record mem : Type := mkMem {
  bundles : gmap loc Bundle;
  sources : gmap loc BundleSource;
  trace : list event
}.

(** The memory without the history: what later calls can observe. *)
Definition heap_of (m : mem) : gmap loc Bundle * gmap loc BundleSource :=
  (bundles m, sources m).

Definition observe {A} (o : outcome (A * mem))
  : outcome (A * (gmap loc Bundle * gmap loc BundleSource)) :=
  match o with
  | Ok (a, m) => Ok (a, heap_of m)
  | Panicked e => Panicked e
  end.

(** Reading a field through a [*Bundle]. *)
Definition deref_Bundle (p : ptr) : M mem Bundle :=
  fun m =>
    match p with
    | NilPtr => Panicked NilDereference
    | Addr l =>
        match bundles m !! l with
        | Some b => Ok (b, m)
        | None => Panicked NilDereference
        end
    end.

(** [&BundleSource{}]: a fresh source whose [bundle] is the zero Value. *)
Definition alloc_BundleSource : M mem ptr :=
  fun m =>
    let l := fresh (dom (sources m)) in
    Ok (Addr l,
        mkMem (bundles m) (<[l := mkBundleSource atomic.zero]> (sources m)) (trace m)).

(** [bs.bundle.Store(val)] *)
Definition bundle_Store (bs : ptr) (val : any) : M mem unit :=
  fun m =>
    match bs with
    | NilPtr => Panicked NilDereference
    | Addr l =>
        match sources m !! l with
        | None => Panicked NilDereference
        | Some src =>
            match atomic.Store (bundle src) val with
            | Ok v' =>
                Ok (tt, mkMem (bundles m) (<[l := mkBundleSource v']> (sources m))
                              (trace m ++ [EvStore l val]))
            | Panicked e => Panicked e
            end
        end
    end.

(** [bs.bundle.Load()] *)
Definition bundle_Load (bs : ptr) : M mem any :=
  fun m =>
    match bs with
    | NilPtr => Panicked NilDereference
    | Addr l =>
        match sources m !! l with
        | None => Panicked NilDereference
        | Some src =>
            Ok (atomic.Load (bundle src),
                mkMem (bundles m) (sources m) (trace m ++ [EvLoad l]))
        end
    end.

(** ** bundlesource.go *)

Definition NewBundleSource (b : ptr) : M mem ptr :=
  bs <- alloc_BundleSource ;;
  _ <- bundle_Store bs (BundlePtr b) ;;
  ret bs.

Definition Update (bs : ptr) (newBundle : ptr) : M mem unit :=
  bundle_Store bs (BundlePtr newBundle).

Definition StableBundle (bs : ptr) : M mem ptr :=
  x <- bundle_Load bs ;;
  lift (assert_BundlePtr x).

Definition PolicyManager (bs : ptr) : M mem policies_Manager :=
  p <- StableBundle bs ;;
  b <- deref_Bundle p ;;
  ret (policyManager b).

Definition MSPManager (bs : ptr) : M mem msp_MSPManager :=
  p <- StableBundle bs ;;
  b <- deref_Bundle p ;;
  ret (mspManager b).

Definition ChannelConfig (bs : ptr) : M mem Channel :=
  p <- StableBundle bs ;;
  b <- deref_Bundle p ;;
  ret (Root_Channel (rootConfig b)).

(** [result != nil] *)
Definition not_nil {A} (x : option A) : bool :=
  match x with
  | Some _ => true
  | None => false
  end.

Definition OrdererConfig (bs : ptr) : M mem (option Orderer * bool) :=
  p <- StableBundle bs ;;
  b <- deref_Bundle p ;;
  let r := Root_Orderer (rootConfig b) in
  ret (r, not_nil r).

Definition ConsortiumsConfig (bs : ptr) : M mem (option Consortiums * bool) :=
  p <- StableBundle bs ;;
  b <- deref_Bundle p ;;
  let r := Root_Consortiums (rootConfig b) in
  ret (r, not_nil r).

Definition ApplicationConfig (bs : ptr) : M mem (option Application * bool) :=
  p <- StableBundle bs ;;
  b <- deref_Bundle p ;;
  let r := Root_Application (rootConfig b) in
  ret (r, not_nil r).

Definition ConfigtxManager (bs : ptr) : M mem configtxapi_Manager :=
  p <- StableBundle bs ;;
  b <- deref_Bundle p ;;
  ret (configtxManager b).

(** A call that is refused: it panics instead of returning. *)
Definition rejected {A} (c : M mem A) (m : mem) : Prop :=
  exists e, c m = Panicked e.

(** ** The memory after a successful atomic operation *)

(** [stored m l p]: the source at [l] now holds [p]; nothing else changed
    but the history. *)
Definition stored (m : mem) (l : loc) (p : ptr) : mem :=
  mkMem (bundles m)
        (<[l := mkBundleSource (atomic.mkValue (BundlePtr p))]> (sources m))
        (trace m ++ [EvStore l (BundlePtr p)]).

(** [loaded m l]: one load of the source at [l] was recorded. *)
Definition loaded (m : mem) (l : loc) : mem :=
  mkMem (bundles m) (sources m) (trace m ++ [EvLoad l]).

(** ** Call sequences on one source *)

(** A client of one source: it publishes bundles and acquires handles. *)
Inductive call : Type :=
  | CallUpdate (newBundle : ptr)
  | CallStableBundle.

(** Runs the calls in order and collects what the [StableBundle] calls
    returned. *)
Fixpoint run_calls (bs : ptr) (cs : list call) : M mem (list ptr) :=
  match cs with
  | [] => ret []
  | CallUpdate n :: cs' =>
      _ <- Update bs n ;;
      run_calls bs cs'
  | CallStableBundle :: cs' =>
      p <- StableBundle bs ;;
      ps <- run_calls bs cs' ;;
      ret (p :: ps)
  end.

(** The bundles the [Update] calls of a sequence install, in order. *)
Definition installed_by (cs : list call) : list ptr :=
  omap (fun c => match c with
                 | CallUpdate n => Some n
                 | CallStableBundle => None
                 end) cs.

(** What the handles of a sequence should be when the source starts out
    holding [cur]: each is the bundle of the latest [Update] before it. *)
Fixpoint latest_handles (cur : ptr) (cs : list call) : list ptr :=
  match cs with
  | [] => []
  | CallUpdate n :: cs' => latest_handles n cs'
  | CallStableBundle :: cs' => cur :: latest_handles cur cs'
  end.

(** The source at [l] holds the bundle pointer [p]. *)
Definition holds (m : mem) (l : loc) (p : ptr) : Prop :=
  sources m !! l = Some (mkBundleSource (atomic.mkValue (BundlePtr p))).

(** An event of the source at [l] that, if a store, stores a [*Bundle]. *)
Definition bundle_event_of (l : loc) (e : event) : Prop :=
  match e with
  | EvStore l' val => l' = l /\ typeof val = Some TBundlePtr
  | EvLoad l' => l' = l
  end.

(** The source at [l] is a zero [BundleSource]: allocated, nothing stored in
    it yet (the type is exported, so a caller can build one without
    [NewBundleSource]). *)
Definition zero_source (m : mem) (l : loc) : Prop :=
  sources m !! l = Some (mkBundleSource atomic.zero).

End ChannelConfig.

(** ** A concrete component family: tagged components

    Every component is a tag; the root configuration lists the tag of the
    channel view and of each optional sub-view it has. *)
Module Tagged.

Record root : Type := mkRoot {
  channel : string;
  orderer : option string;
  consortiums : option string;
  application : option string
}.

#[export] Instance components : Components := {|
  policies_Manager := string;
  msp_MSPManager := string;
  configtxapi_Manager := string;
  Channel := string;
  Orderer := string;
  Consortiums := string;
  Application := string;
  Root := root;
  Root_Channel := channel;
  Root_Orderer := orderer;
  Root_Consortiums := consortiums;
  Root_Application := application
|}.

(** Bundle v1 has an ordering view, bundle v2 has none. *)
Definition v1 : Bundle :=
  mkBundle "policy-v1" "msp-v1"
           (mkRoot "channel-v1" (Some "orderer-v1") None (Some "app-v1"))
           "configtx-v1".

Definition v2 : Bundle :=
  mkBundle "policy-v2" "msp-v2"
           (mkRoot "channel-v2" None (Some "consortiums-v2") None)
           "configtx-v2".

(** A memory with both bundles allocated and no source yet. *)
Definition m0 : mem :=
  mkMem (<[10%positive := v1]> (<[20%positive := v2]> ∅)) ∅ [].

Definition pA : ptr := Addr 10%positive.
Definition pB : ptr := Addr 20%positive.

(** The source [NewBundleSource] allocates on [m0]. *)
Definition l0 : loc := 1%positive.
Definition bs0 : ptr := Addr l0.

(** The memory after [NewBundleSource pA] on [m0], and after a further
    [Update bs0 pB]. *)
Definition m1 : mem := stored m0 l0 pA.
Definition m2 : mem := stored m1 l0 pB.

(** A memory whose only source is a zero [BundleSource]. *)
Definition mz : mem :=
  mkMem (bundles m0) (<[l0 := mkBundleSource atomic.zero]> ∅) [].

(** A second source, built by [NewBundleSource pB] on [m1]. *)
Definition l1 : loc := 2%positive.
Definition bs1 : ptr := Addr l1.
Definition m3 : mem := stored m1 l1 pB.

End Tagged.

(** * Properties *)

Section Properties.

Context {C : Components}.

Implicit Types (m : mem) (l : loc) (bs p n : ptr) (cs : list call).

(** ** The atomic slot *)

Lemma Store_BundlePtr_inv (x : atomic.Value) p (x' : atomic.Value) :
  atomic.Store x (BundlePtr p) = Ok x' -> x' = atomic.mkValue (BundlePtr p).
Proof.
  unfold atomic.Store; simpl.
  destruct (typeof (atomic.v x)) as [t0|]; [|congruence].
  case_decide; congruence.
Qed.

Lemma Store_BundlePtr_over p q :
  atomic.Store (atomic.mkValue (BundlePtr p)) (BundlePtr q)
  = Ok (atomic.mkValue (BundlePtr q)).
Proof. reflexivity. Qed.

Lemma Store_zero p :
  atomic.Store atomic.zero (BundlePtr p) = Ok (atomic.mkValue (BundlePtr p)).
Proof. reflexivity. Qed.

(** Whether a store of a [*Bundle] succeeds depends on the slot only. *)
Lemma Store_BundlePtr_any (x : atomic.Value) p q :
  atomic.Store x (BundlePtr q)
  = match atomic.Store x (BundlePtr p) with
    | Ok _ => Ok (atomic.mkValue (BundlePtr q))
    | Panicked e => Panicked e
    end.
Proof.
  unfold atomic.Store; simpl.
  destruct (typeof (atomic.v x)); [case_decide|]; reflexivity.
Qed.

Example Store_nil_interface_panics (x : atomic.Value) :
  atomic.Store x NilAny = Panicked StoreOfNil.
Proof. reflexivity. Qed.

Example Store_other_type_panics p :
  atomic.Store (atomic.mkValue (BundlePtr p)) (Foreign "int")
  = Panicked StoreInconsistentType.
Proof. reflexivity. Qed.

(** ** One step of each operation *)

Lemma Update_inv bs n m m' :
  Update bs n m = Ok (tt, m') ->
  exists l, bs = Addr l /\ is_Some (sources m !! l) /\ m' = stored m l n.
Proof.
  unfold Update, bundle_Store. intros H.
  destruct bs as [|l]; [discriminate|].
  destruct (sources m !! l) as [src|] eqn:Hsrc; [|discriminate].
  destruct (atomic.Store (bundle src) (BundlePtr n)) as [x'|e] eqn:Hst; [|discriminate].
  apply Store_BundlePtr_inv in Hst. subst x'.
  exists l. split; [reflexivity|]. split; [eauto|].
  inversion H. reflexivity.
Qed.

Lemma Update_holds m l p n :
  holds m l p -> Update (Addr l) n m = Ok (tt, stored m l n).
Proof.
  unfold holds, Update, bundle_Store. intros ->. reflexivity.
Qed.

Lemma holds_stored m l n : holds (stored m l n) l n.
Proof. unfold holds, stored; simpl. apply lookup_insert_eq. Qed.

Lemma holds_loaded m l l' p : holds m l p -> holds (loaded m l') l p.
Proof. unfold holds, loaded; simpl. done. Qed.

Lemma holds_functional m l p q : holds m l p -> holds m l q -> p = q.
Proof. unfold holds. congruence. Qed.

Lemma StableBundle_holds m l p :
  holds m l p -> StableBundle (Addr l) m = Ok (p, loaded m l).
Proof.
  unfold holds, StableBundle, bind, bundle_Load. intros ->. reflexivity.
Qed.

Lemma StableBundle_inv bs p m m' :
  StableBundle bs m = Ok (p, m') ->
  exists l, bs = Addr l /\ holds m l p /\ m' = loaded m l.
Proof.
  unfold StableBundle, bind, bundle_Load, holds. intros H.
  destruct bs as [|l]; [discriminate|].
  destruct (sources m !! l) as [[[x]]|] eqn:Hsrc; [|discriminate].
  simpl in H. destruct x; simpl in H; try discriminate.
  inversion H; subst. eauto.
Qed.

Lemma NewBundleSource_eq (b : ptr) m :
  let l := fresh (dom (sources m)) in
  NewBundleSource b m = Ok (Addr l, stored m l b).
Proof.
  intros l. unfold NewBundleSource, bind, alloc_BundleSource, bundle_Store, ret.
  simpl. fold l. rewrite lookup_insert_eq. simpl.
  unfold stored. rewrite insert_insert_eq. reflexivity.
Qed.

Lemma fresh_source_unallocated m :
  sources m !! fresh (dom (sources m)) = None.
Proof. apply not_elem_of_dom, is_fresh. Qed.

Lemma deref_Bundle_inv p (b : Bundle) m m' :
  deref_Bundle p m = Ok (b, m') ->
  exists a, p = Addr a /\ bundles m !! a = Some b /\ m' = m.
Proof.
  unfold deref_Bundle. destruct p as [|a]; [discriminate|].
  destruct (bundles m !! a) eqn:Hb; [|discriminate].
  intros H; inversion H; subst. eauto.
Qed.

(** ** Accessors: one acquisition, then a field of that bundle *)

Lemma accessor_holds {A} (f : Bundle -> A) m l a (b : Bundle) :
  holds m l (Addr a) -> bundles m !! a = Some b ->
  (p <- StableBundle (Addr l) ;; x <- deref_Bundle p ;; ret (f x)) m
  = Ok (f b, loaded m l).
Proof.
  intros Hh Hb. unfold bind at 1. rewrite (StableBundle_holds _ _ _ Hh).
  unfold bind, deref_Bundle, ret, loaded; simpl. rewrite Hb. reflexivity.
Qed.

Lemma accessor_nil {A} (f : Bundle -> A) m l :
  holds m l NilPtr ->
  (p <- StableBundle (Addr l) ;; x <- deref_Bundle p ;; ret (f x)) m
  = Panicked NilDereference.
Proof.
  intros Hh. unfold bind at 1. rewrite (StableBundle_holds _ _ _ Hh).
  reflexivity.
Qed.

(** Runs an accessor on a source known to hold an allocated bundle. *)
Ltac run_accessor Hh Hb :=
  unfold bind at 1; rewrite (StableBundle_holds _ _ _ Hh);
  unfold bind, deref_Bundle, ret, loaded; simpl; rewrite Hb; reflexivity.

(** ** Call sequences *)

Lemma last_installed_cons cur n (xs : list ptr) :
  default cur (last (n :: xs)) = default n (last xs).
Proof. rewrite last_cons. destruct (last xs); reflexivity. Qed.

(** From a source holding [cur], a call sequence never panics; its handles
    are the latest installed bundles; it leaves the source holding the last
    installed bundle, leaves every bundle as it was, and records only
    operations on this source whose stores are bundle pointers. *)
Lemma run_calls_holds cs : forall m l cur,
  holds m l cur ->
  exists m',
    run_calls (Addr l) cs m = Ok (latest_handles cur cs, m')
    /\ holds m' l (default cur (last (installed_by cs)))
    /\ bundles m' = bundles m
    /\ exists tr, trace m' = trace m ++ tr /\ Forall (bundle_event_of l) tr.
Proof.
  induction cs as [|c cs IH]; intros m l cur Hh.
  - exists m. repeat split; try done.
    exists []. by rewrite app_nil_r.
  - destruct c as [n|]; simpl.
    + destruct (IH (stored m l n) l n (holds_stored m l n))
        as (m' & Hrun & Hh' & Hb & tr & Htr & Hev).
      exists m'. unfold bind. rewrite (Update_holds _ _ _ n Hh).
      rewrite Hrun, last_installed_cons. repeat split; try done.
      exists (EvStore l (BundlePtr n) :: tr). split.
      * rewrite Htr. simpl. by rewrite <- app_assoc.
      * constructor; [by split|done].
    + destruct (IH (loaded m l) l cur (holds_loaded m l l cur Hh))
        as (m' & Hrun & Hh' & Hb & tr & Htr & Hev).
      exists m'. unfold bind at 1. rewrite (StableBundle_holds _ _ _ Hh).
      unfold bind, ret. rewrite Hrun. repeat split; try done.
      exists (EvLoad l :: tr). split.
      * rewrite Htr. simpl. by rewrite <- app_assoc.
      * constructor; done.
Qed.

Lemma latest_handles_replicate cur k :
  latest_handles cur (replicate k CallStableBundle) = replicate k cur.
Proof. induction k as [|k IH]; simpl; [done|by rewrite IH]. Qed.

(** Every handle of a sequence is the initial bundle or an installed one. *)
Lemma latest_handles_installed cs : forall cur,
  Forall (fun p => p ∈ cur :: installed_by cs) (latest_handles cur cs).
Proof.
  induction cs as [|[n|] cs IH]; intros cur; simpl.
  - constructor.
  - eapply Forall_impl; [apply IH|]. simpl. intros p Hp.
    apply elem_of_cons in Hp as [->|Hp].
    + apply elem_of_cons. right. apply elem_of_cons. by left.
    + apply elem_of_cons. right. apply elem_of_cons. by right.
  - constructor; [apply elem_of_cons; by left|]. apply IH.
Qed.

(** ** The claims *)

(** C1. [StableBundle] on a source just built by [NewBundleSource b] returns
    exactly [b].  On every source, once [Update n] has completed, any number
    of [StableBundle] calls in a row all return exactly [n], and the
    optional-view accessors then report the sub-views of the bundle [n]
    points to. *)
Theorem C1_StableBundle_returns_installed :
  (forall (b : ptr) m, exists bs m1 m2,
      NewBundleSource b m = Ok (bs, m1) /\ StableBundle bs m1 = Ok (b, m2))
  /\ (forall bs n m m' (k : nat),
      Update bs n m = Ok (tt, m') ->
      exists m'',
        run_calls bs (replicate k CallStableBundle) m' = Ok (replicate k n, m''))
  /\ (forall bs a (b : Bundle) m m',
      Update bs (Addr a) m = Ok (tt, m') ->
      bundles m !! a = Some b ->
      result (PolicyManager bs m') = Ok (policyManager b)
      /\ result (OrdererConfig bs m')
         = Ok (Root_Orderer (rootConfig b), not_nil (Root_Orderer (rootConfig b)))
      /\ result (ConsortiumsConfig bs m')
         = Ok (Root_Consortiums (rootConfig b),
               not_nil (Root_Consortiums (rootConfig b)))
      /\ result (ApplicationConfig bs m')
         = Ok (Root_Application (rootConfig b),
               not_nil (Root_Application (rootConfig b)))).
Proof.
  split; [|split].
  - intros b m. eexists _, _, _. split; [apply NewBundleSource_eq|].
    apply StableBundle_holds, holds_stored.
  - intros bs n m m' k Hup.
    destruct (Update_inv _ _ _ _ Hup) as (l & -> & _ & ->).
    destruct (run_calls_holds (replicate k CallStableBundle)
                (stored m l n) l n (holds_stored m l n)) as (m'' & Hrun & _).
    exists m''. by rewrite Hrun, latest_handles_replicate.
  - intros bs a b m m' Hup Hb.
    destruct (Update_inv _ _ _ _ Hup) as (l & -> & _ & ->).
    assert (Hb' : bundles (stored m l (Addr a)) !! a = Some b) by exact Hb.
    pose proof (holds_stored m l (Addr a)) as Hh.
    unfold PolicyManager, OrdererConfig, ConsortiumsConfig, ApplicationConfig.
    rewrite (accessor_holds policyManager _ _ _ _ Hh Hb').
    rewrite (accessor_holds
               (fun x => (Root_Orderer (rootConfig x),
                          not_nil (Root_Orderer (rootConfig x)))) _ _ _ _ Hh Hb').
    rewrite (accessor_holds
               (fun x => (Root_Consortiums (rootConfig x),
                          not_nil (Root_Consortiums (rootConfig x)))) _ _ _ _ Hh Hb').
    rewrite (accessor_holds
               (fun x => (Root_Application (rootConfig x),
                          not_nil (Root_Application (rootConfig x)))) _ _ _ _ Hh Hb').
    done.
Qed.

Lemma deref_Bundle_bundles p m m' :
  bundles m' = bundles m ->
  result (deref_Bundle p m') = result (deref_Bundle p m).
Proof.
  intros Hb. unfold deref_Bundle. destruct p as [|a]; [done|].
  rewrite Hb. by destruct (bundles m !! a).
Qed.

(** C3. A handle [h] acquired by one [StableBundle] call is untouched by a
    later [Update B]: the update rewrites the slot of the source only, every
    bundle in memory stays as it was, so what is read through [h] is what was
    read at acquisition, while the source itself now hands out [B]. *)
Theorem C3_handle_unchanged_by_Update bs h B m m1 m2 :
  StableBundle bs m = Ok (h, m1) ->
  Update bs B m1 = Ok (tt, m2) ->
  bundles m2 = bundles m
  /\ result (deref_Bundle h m2) = result (deref_Bundle h m)
  /\ (forall l, bs <> Addr l -> sources m2 !! l = sources m !! l)
  /\ exists m3, StableBundle bs m2 = Ok (B, m3).
Proof.
  intros Hsb Hup.
  destruct (StableBundle_inv _ _ _ _ Hsb) as (l & -> & Hh & ->).
  destruct (Update_inv _ _ _ _ Hup) as (l' & Heq & _ & ->).
  inversion Heq; subst l'. clear Heq.
  assert (Hb : bundles (stored (loaded m l) l B) = bundles m) by reflexivity.
  split; [exact Hb|]. split; [by apply deref_Bundle_bundles|]. split.
  - intros l' Hne. unfold stored, loaded; simpl.
    apply lookup_insert_ne. congruence.
  - eexists. apply StableBundle_holds, holds_stored.
Qed.

(** C4. Each convenience accessor performs exactly one atomic load of the
    slot (the one [StableBundle] performs), writes nothing, and returns the
    corresponding field or root-config sub-view of the bundle that
    [StableBundle] returns at that moment. *)
Theorem C4_accessor_is_one_StableBundle_then_field bs p (b : Bundle) m m1 :
  StableBundle bs m = Ok (p, m1) ->
  result (deref_Bundle p m1) = Ok b ->
  PolicyManager bs m = Ok (policyManager b, m1)
  /\ MSPManager bs m = Ok (mspManager b, m1)
  /\ ChannelConfig bs m = Ok (Root_Channel (rootConfig b), m1)
  /\ OrdererConfig bs m
     = Ok ((Root_Orderer (rootConfig b), not_nil (Root_Orderer (rootConfig b))), m1)
  /\ ConsortiumsConfig bs m
     = Ok ((Root_Consortiums (rootConfig b),
            not_nil (Root_Consortiums (rootConfig b))), m1)
  /\ ApplicationConfig bs m
     = Ok ((Root_Application (rootConfig b),
            not_nil (Root_Application (rootConfig b))), m1)
  /\ ConfigtxManager bs m = Ok (configtxManager b, m1)
  /\ heap_of m1 = heap_of m
  /\ exists l, bs = Addr l /\ trace m1 = trace m ++ [EvLoad l].
Proof.
  intros Hsb Hd.
  destruct (StableBundle_inv _ _ _ _ Hsb) as (l & -> & Hh & ->).
  destruct (deref_Bundle p (loaded m l)) as [[b' m']|e] eqn:Hd'; [|discriminate].
  simpl in Hd. inversion Hd; subst b'. clear Hd.
  destruct (deref_Bundle_inv _ _ _ _ Hd') as (a & -> & Hb & _).
  change (bundles (loaded m l)) with (bundles m) in Hb.
  unfold PolicyManager, MSPManager, ChannelConfig, OrdererConfig,
    ConsortiumsConfig, ApplicationConfig, ConfigtxManager.
  repeat split; try (run_accessor Hh Hb).
  exists l. done.
Qed.

(** C5. Two accessors called back to back on the source need not read the
    same bundle: when the source holds [A] and [Update B] runs between
    [OrdererConfig] and [MSPManager], the first result is the ordering view
    of [A] and the second the MSP manager of [B]. *)
Theorem C5_back_to_back_accessors_can_mix bs la lb (a b : Bundle) m mA :
  StableBundle bs m = Ok (Addr la, mA) ->
  bundles m !! la = Some a ->
  bundles m !! lb = Some b ->
  result ((o <- OrdererConfig bs ;;
           _ <- Update bs (Addr lb) ;;
           x <- MSPManager bs ;;
           ret (o, x)) m)
  = Ok ((Root_Orderer (rootConfig a), not_nil (Root_Orderer (rootConfig a))),
        mspManager b).
Proof.
  intros Hsb Ha Hb.
  destruct (StableBundle_inv _ _ _ _ Hsb) as (l & -> & Hh & _).
  unfold bind at 1. unfold OrdererConfig.
  rewrite (accessor_holds
             (fun x => (Root_Orderer (rootConfig x),
                        not_nil (Root_Orderer (rootConfig x)))) _ _ _ _ Hh Ha).
  unfold bind at 1.
  rewrite (Update_holds _ _ _ (Addr lb) (holds_loaded _ _ l _ Hh)).
  unfold bind at 1. unfold MSPManager.
  rewrite (accessor_holds mspManager (stored (loaded m l) l (Addr lb)) l lb b
             (holds_stored _ _ _) Hb).
  reflexivity.
Qed.

Lemma not_nil_true {A} (x : option A) : not_nil x = true <-> is_Some x.
Proof.
  destruct x as [a|]; simpl; split; intros H.
  - by exists a.
  - reflexivity.
  - discriminate.
  - by destruct H.
Qed.

(** C6. On a source whose current bundle is [b], each optional-view accessor
    returns the sub-view of [b]'s root configuration together with a flag
    that is true exactly when that sub-view is present; when it is absent
    the accessor returns nil and false, and does not panic. *)
Theorem C6_optional_view_flag bs p (b : Bundle) m m1 :
  StableBundle bs m = Ok (p, m1) ->
  result (deref_Bundle p m1) = Ok b ->
  (exists r ex,
      result (OrdererConfig bs m) = Ok (r, ex)
      /\ r = Root_Orderer (rootConfig b)
      /\ (ex = true <-> is_Some r)
      /\ (r = None -> ex = false))
  /\ (exists r ex,
      result (ConsortiumsConfig bs m) = Ok (r, ex)
      /\ r = Root_Consortiums (rootConfig b)
      /\ (ex = true <-> is_Some r)
      /\ (r = None -> ex = false))
  /\ (exists r ex,
      result (ApplicationConfig bs m) = Ok (r, ex)
      /\ r = Root_Application (rootConfig b)
      /\ (ex = true <-> is_Some r)
      /\ (r = None -> ex = false)).
Proof.
  intros Hsb Hd.
  destruct (StableBundle_inv _ _ _ _ Hsb) as (l & -> & Hh & ->).
  destruct (deref_Bundle p (loaded m l)) as [[b' m']|e] eqn:Hd'; [|discriminate].
  simpl in Hd. inversion Hd; subst b'. clear Hd.
  destruct (deref_Bundle_inv _ _ _ _ Hd') as (a & -> & Hb & _).
  change (bundles (loaded m l)) with (bundles m) in Hb.
  unfold OrdererConfig, ConsortiumsConfig, ApplicationConfig.
  rewrite (accessor_holds
             (fun x => (Root_Orderer (rootConfig x),
                        not_nil (Root_Orderer (rootConfig x)))) _ _ _ _ Hh Hb).
  rewrite (accessor_holds
             (fun x => (Root_Consortiums (rootConfig x),
                        not_nil (Root_Consortiums (rootConfig x)))) _ _ _ _ Hh Hb).
  rewrite (accessor_holds
             (fun x => (Root_Application (rootConfig x),
                        not_nil (Root_Application (rootConfig x)))) _ _ _ _ Hh Hb).
  simpl.
  repeat split; eexists _, _;
    (split; [reflexivity|]; split; [reflexivity|]; split;
     [apply not_nil_true | by intros ->]).
Qed.

(** Every accessor of a source that holds the nil bundle dereferences it. *)
Lemma accessors_nil m l :
  holds m l NilPtr ->
  PolicyManager (Addr l) m = Panicked NilDereference
  /\ MSPManager (Addr l) m = Panicked NilDereference
  /\ ChannelConfig (Addr l) m = Panicked NilDereference
  /\ OrdererConfig (Addr l) m = Panicked NilDereference
  /\ ConsortiumsConfig (Addr l) m = Panicked NilDereference
  /\ ApplicationConfig (Addr l) m = Panicked NilDereference
  /\ ConfigtxManager (Addr l) m = Panicked NilDereference.
Proof.
  intros Hh.
  unfold PolicyManager, MSPManager, ChannelConfig, OrdererConfig,
    ConsortiumsConfig, ApplicationConfig, ConfigtxManager.
  repeat split; by apply accessor_nil.
Qed.

(** C7, as the code has it.  Neither [NewBundleSource] nor [Update] checks
    its argument: [NewBundleSource nil] returns a source, and [Update nil]
    completes on every source on which some [Update] completes.  The source
    then holds nil, [StableBundle] returns nil, and the fault appears at the
    later read: every accessor panics on the nil dereference. *)
Theorem C7_nil_bundle_accepted_fault_at_read :
  (forall m, exists l m1 m2,
      NewBundleSource NilPtr m = Ok (Addr l, m1)
      /\ StableBundle (Addr l) m1 = Ok (NilPtr, m2)
      /\ PolicyManager (Addr l) m1 = Panicked NilDereference
      /\ MSPManager (Addr l) m1 = Panicked NilDereference
      /\ ChannelConfig (Addr l) m1 = Panicked NilDereference
      /\ OrdererConfig (Addr l) m1 = Panicked NilDereference
      /\ ConsortiumsConfig (Addr l) m1 = Panicked NilDereference
      /\ ApplicationConfig (Addr l) m1 = Panicked NilDereference
      /\ ConfigtxManager (Addr l) m1 = Panicked NilDereference)
  /\ (forall bs n m m',
      Update bs n m = Ok (tt, m') ->
      exists l m1 m2,
        bs = Addr l
        /\ Update bs NilPtr m = Ok (tt, m1)
        /\ StableBundle bs m1 = Ok (NilPtr, m2)
        /\ PolicyManager bs m1 = Panicked NilDereference
        /\ MSPManager bs m1 = Panicked NilDereference
        /\ ChannelConfig bs m1 = Panicked NilDereference
        /\ OrdererConfig bs m1 = Panicked NilDereference
        /\ ConsortiumsConfig bs m1 = Panicked NilDereference
        /\ ApplicationConfig bs m1 = Panicked NilDereference
        /\ ConfigtxManager bs m1 = Panicked NilDereference).
Proof.
  split.
  - intros m. set (l := fresh (dom (sources m))).
    exists l, (stored m l NilPtr), (loaded (stored m l NilPtr) l).
    split; [apply NewBundleSource_eq|].
    split; [apply StableBundle_holds, holds_stored|].
    apply accessors_nil, holds_stored.
  - intros bs n m m' Hup.
    destruct (Update_inv _ _ _ _ Hup) as (l & -> & _ & ->).
    exists l, (stored m l NilPtr), (loaded (stored m l NilPtr) l).
    split; [reflexivity|]. split.
    + revert Hup. unfold Update, bundle_Store.
      destruct (sources m !! l) as [src|]; [|discriminate].
      rewrite (Store_BundlePtr_any (bundle src) n NilPtr).
      destruct (atomic.Store (bundle src) (BundlePtr n)); [|discriminate].
      reflexivity.
    + split; [apply StableBundle_holds, holds_stored|].
      apply accessors_nil, holds_stored.
Qed.

(** C8. For a source built by [NewBundleSource] from a non-nil bundle and any
    sequence of calls whose [Update]s all pass non-nil bundles: no call
    panics; the slot holds a bundle pointer afterwards; and every
    [StableBundle], during the sequence and after it, returns a non-nil
    bundle that is the initial one or one installed by an [Update] of the
    sequence (the latest before that call). *)
Theorem C8_slot_never_empty (b : ptr) cs m :
  b <> NilPtr ->
  Forall (fun n => n <> NilPtr) (installed_by cs) ->
  exists l m1 hs m2 p m3,
    NewBundleSource b m = Ok (Addr l, m1)
    /\ run_calls (Addr l) cs m1 = Ok (hs, m2)
    /\ hs = latest_handles b cs
    /\ Forall (fun h => h <> NilPtr /\ h ∈ b :: installed_by cs) hs
    /\ holds m2 l p
    /\ StableBundle (Addr l) m2 = Ok (p, m3)
    /\ p <> NilPtr
    /\ p ∈ b :: installed_by cs.
Proof.
  intros Hb Hcs. set (l := fresh (dom (sources m))).
  destruct (run_calls_holds cs (stored m l b) l b (holds_stored m l b))
    as (m2 & Hrun & Hh & _).
  assert (Hin : forall q, q ∈ b :: installed_by cs -> q <> NilPtr).
  { intros q Hq. apply elem_of_cons in Hq as [->|Hq]; [done|].
    rewrite Forall_forall in Hcs. by apply Hcs. }
  assert (Hlast : default b (last (installed_by cs)) ∈ b :: installed_by cs).
  { destruct (last (installed_by cs)) as [q|] eqn:Hl; simpl.
    - apply elem_of_cons. right. by apply last_Some_elem_of.
    - apply elem_of_cons. by left. }
  exists l, (stored m l b), (latest_handles b cs), m2,
    (default b (last (installed_by cs))), (loaded m2 l).
  split; [apply NewBundleSource_eq|]. split; [exact Hrun|].
  split; [reflexivity|]. split.
  { eapply Forall_impl; [apply latest_handles_installed|].
    simpl. intros q Hq. split; [by apply Hin|done]. }
  split; [exact Hh|]. split; [by apply StableBundle_holds|].
  split; [by apply Hin|done].
Qed.

(** C9. [Update] overwrites whatever the source held (last writer wins).  On a
    source holding any bundle [old], [Update B] completes and the source then
    holds [B] and reads as [B]; the memory it leaves is the old one with the
    slot set to [B], whatever the slot held before; [Update A] then [Update B]
    completes with the same bundles and sources as [Update B] alone, and
    [StableBundle] then returns [B]; [Update B] twice is [Update B] once.  On
    every receiver and memory, up to the recorded history, the two-update
    sequences equal the single update, also where they panic. *)
Theorem C9_Update_last_writer_wins l (old A B : ptr) m :
  holds m l old ->
  Update (Addr l) B m = Ok (tt, stored m l B)
  /\ holds (stored m l B) l B
  /\ result (StableBundle (Addr l) (stored m l B)) = Ok B
  /\ heap_of (stored m l B)
     = (bundles m,
        <[l := mkBundleSource (atomic.mkValue (BundlePtr B))]> (sources m))
  /\ observe ((_ <- Update (Addr l) A ;; Update (Addr l) B) m)
     = Ok (tt, heap_of (stored m l B))
  /\ result ((_ <- Update (Addr l) A ;;
              _ <- Update (Addr l) B ;;
              StableBundle (Addr l)) m)
     = Ok B
  /\ observe ((_ <- Update (Addr l) B ;; Update (Addr l) B) m)
     = Ok (tt, heap_of (stored m l B))
  /\ (forall old' m',
        holds m' l old' ->
        bundles m' = bundles m ->
        (forall l', l' <> l -> sources m' !! l' = sources m !! l') ->
        observe (Update (Addr l) B m') = Ok (tt, heap_of (stored m l B)))
  /\ (forall bs m0,
        observe ((_ <- Update bs A ;; Update bs B) m0) = observe (Update bs B m0))
  /\ (forall bs m0,
        observe ((_ <- Update bs B ;; Update bs B) m0) = observe (Update bs B m0)).
Proof.
  intros Hh.
  assert (Hseq : forall bs X Y m0,
    observe ((_ <- Update bs X ;; Update bs Y) m0) = observe (Update bs Y m0)).
  { intros bs X Y m0. unfold bind, Update, bundle_Store.
    destruct bs as [|l0]; [reflexivity|].
    destruct (sources m0 !! l0) as [src|] eqn:Hsrc; [|reflexivity].
    rewrite (Store_BundlePtr_any (bundle src) X Y).
    destruct (atomic.Store (bundle src) (BundlePtr X)) as [x|e] eqn:Hst;
      [|reflexivity].
    apply Store_BundlePtr_inv in Hst. subst x. simpl.
    rewrite lookup_insert_eq. simpl.
    unfold heap_of; simpl. by rewrite insert_insert_eq. }
  assert (Hone : observe (Update (Addr l) B m) = Ok (tt, heap_of (stored m l B))).
  { by rewrite (Update_holds _ _ _ B Hh). }
  split; [by apply (Update_holds m l old)|].
  split; [apply holds_stored|].
  split; [by rewrite (StableBundle_holds _ _ _ (holds_stored m l B))|].
  split; [reflexivity|].
  split; [by rewrite Hseq|].
  split.
  { unfold bind. rewrite (Update_holds _ _ _ A Hh).
    rewrite (Update_holds _ _ _ B (holds_stored m l A)).
    by rewrite (StableBundle_holds _ _ _ (holds_stored (stored m l A) l B)). }
  split; [by rewrite Hseq|].
  split.
  { intros old' m' Hh' Hb Hs. rewrite (Update_holds _ _ _ B Hh'). simpl.
    unfold heap_of, stored; simpl. rewrite Hb. do 3 f_equal.
    apply map_eq. intros i. destruct (decide (i = l)) as [->|Hne].
    - by rewrite !lookup_insert_eq.
    - rewrite !lookup_insert_ne by done. by apply Hs. }
  split; intros bs m0; apply Hseq.
Qed.

(** C10. The type assertion in [StableBundle] cannot fail on a source made
    by [NewBundleSource]: for every initial bundle (nil included) and every
    sequence of [Update] and [StableBundle] calls, no call panics and a
    further [StableBundle] succeeds; the source is a new object whose first
    recorded operation is the store of the initial bundle, and every value
    stored in it afterwards has dynamic type pointer-to-Bundle. *)
Theorem C10_StableBundle_assertion_never_panics (b : ptr) cs m :
  exists l m1 hs m2 p m3 tr,
    NewBundleSource b m = Ok (Addr l, m1)
    /\ sources m !! l = None
    /\ run_calls (Addr l) cs m1 = Ok (hs, m2)
    /\ StableBundle (Addr l) m2 = Ok (p, m3)
    /\ bundle <$> sources m2 !! l = Some (atomic.mkValue (BundlePtr p))
    /\ trace m3 = trace m ++ EvStore l (BundlePtr b) :: tr
    /\ Forall (bundle_event_of l) tr.
Proof.
  set (l := fresh (dom (sources m))).
  destruct (run_calls_holds cs (stored m l b) l b (holds_stored m l b))
    as (m2 & Hrun & Hh & _ & tr & Htr & Hev).
  exists l, (stored m l b), (latest_handles b cs), m2,
    (default b (last (installed_by cs))), (loaded m2 l), (tr ++ [EvLoad l]).
  split; [apply NewBundleSource_eq|].
  split; [apply fresh_source_unallocated|].
  split; [exact Hrun|]. split; [by apply StableBundle_holds|].
  split; [by rewrite Hh|]. split.
  - unfold loaded; simpl. rewrite Htr. unfold stored; simpl.
    by rewrite <- !app_assoc.
  - apply Forall_app. split; [exact Hev|]. by constructor.
Qed.

End Properties.

(** * The tagged scenario: v1 installed at construction, then v2 published *)

Import Tagged.

Example scenario_construct : NewBundleSource pA m0 = Ok (bs0, m1).
Proof. vm_compute. reflexivity. Qed.

Example scenario_update : Update bs0 pB m1 = Ok (tt, m2).
Proof. vm_compute. reflexivity. Qed.

Example scenario_zero_source_panics :
  result (StableBundle bs0 (mkMem (bundles m0) {[l0 := mkBundleSource atomic.zero]} []))
  = Panicked InterfaceConversion.
Proof. vm_compute. reflexivity. Qed.

Lemma C1_witness :
  (exists bs ma mb,
      NewBundleSource pA m0 = Ok (bs, ma) /\ StableBundle bs ma = Ok (pA, mb))
  /\ Update bs0 pB m1 = Ok (tt, m2)
  /\ (exists m'', run_calls bs0 (replicate 3 CallStableBundle) m2
                  = Ok ([pB; pB; pB], m''))
  /\ result (PolicyManager bs0 m2) = Ok "policy-v2"
  /\ result (OrdererConfig bs0 m2) = Ok (None, false).
Proof.
  assert (Hup : Update bs0 pB m1 = Ok (tt, m2)) by (vm_compute; reflexivity).
  assert (Hb : bundles m1 !! 20%positive = Some v2) by (vm_compute; reflexivity).
  destruct C1_StableBundle_returns_installed as (Hnew & Hreads & Hviews).
  destruct (Hviews bs0 20%positive v2 m1 m2 Hup Hb) as (Hp & Ho & _).
  split; [exact (Hnew pA m0)|]. split; [exact Hup|]. split; [exact (Hreads bs0 pB m1 m2 3 Hup)|].
  split; [exact Hp|exact Ho].
Defined.

Lemma C3_witness :
  StableBundle bs0 m1 = Ok (pA, loaded m1 l0)
  /\ Update bs0 pB (loaded m1 l0) = Ok (tt, stored (loaded m1 l0) l0 pB)
  /\ result (deref_Bundle pA (stored (loaded m1 l0) l0 pB)) = Ok v1
  /\ exists m3, StableBundle bs0 (stored (loaded m1 l0) l0 pB) = Ok (pB, m3).
Proof.
  assert (Hsb : StableBundle bs0 m1 = Ok (pA, loaded m1 l0))
    by (vm_compute; reflexivity).
  assert (Hup : Update bs0 pB (loaded m1 l0) = Ok (tt, stored (loaded m1 l0) l0 pB))
    by (vm_compute; reflexivity).
  destruct (C3_handle_unchanged_by_Update bs0 pA pB m1 _ _ Hsb Hup)
    as (_ & Hd & _ & Hnow).
  split; [exact Hsb|]. split; [exact Hup|]. split; [|exact Hnow].
  rewrite Hd. vm_compute. reflexivity.
Defined.

Lemma C4_witness :
  StableBundle bs0 m1 = Ok (pA, loaded m1 l0)
  /\ PolicyManager bs0 m1 = Ok ("policy-v1", loaded m1 l0)
  /\ OrdererConfig bs0 m1 = Ok ((Some "orderer-v1", true), loaded m1 l0)
  /\ ConsortiumsConfig bs0 m1 = Ok ((None, false), loaded m1 l0)
  /\ trace (loaded m1 l0) = trace m1 ++ [EvLoad l0].
Proof.
  assert (Hsb : StableBundle bs0 m1 = Ok (pA, loaded m1 l0))
    by (vm_compute; reflexivity).
  assert (Hd : result (deref_Bundle pA (loaded m1 l0)) = Ok v1)
    by (vm_compute; reflexivity).
  destruct (C4_accessor_is_one_StableBundle_then_field bs0 pA v1 m1 _ Hsb Hd)
    as (Hp & _ & _ & Ho & Hc & _).
  split; [exact Hsb|]. split; [exact Hp|]. split; [exact Ho|].
  split; [exact Hc|reflexivity].
Defined.

Lemma C5_witness :
  StableBundle bs0 m1 = Ok (pA, loaded m1 l0)
  /\ result ((o <- OrdererConfig bs0 ;;
              _ <- Update bs0 pB ;;
              x <- MSPManager bs0 ;;
              ret (o, x)) m1)
     = Ok ((Some "orderer-v1", true), "msp-v2")
  /\ mspManager v1 <> "msp-v2"
  /\ Root_Orderer (rootConfig v2) <> Some "orderer-v1".
Proof.
  assert (Hsb : StableBundle bs0 m1 = Ok (Addr 10%positive, loaded m1 l0))
    by (vm_compute; reflexivity).
  assert (Ha : bundles m1 !! 10%positive = Some v1) by (vm_compute; reflexivity).
  assert (Hb : bundles m1 !! 20%positive = Some v2) by (vm_compute; reflexivity).
  split; [exact Hsb|].
  split; [exact (C5_back_to_back_accessors_can_mix bs0 _ _ v1 v2 m1 _ Hsb Ha Hb)|].
  split; discriminate.
Defined.

Lemma C6_witness :
  result (OrdererConfig bs0 m2) = Ok (None, false)
  /\ result (ConsortiumsConfig bs0 m2) = Ok (Some "consortiums-v2", true)
  /\ result (ApplicationConfig bs0 m2) = Ok (None, false).
Proof.
  assert (Hsb : StableBundle bs0 m2 = Ok (pB, loaded m2 l0))
    by (vm_compute; reflexivity).
  assert (Hd : result (deref_Bundle pB (loaded m2 l0)) = Ok v2)
    by (vm_compute; reflexivity).
  destruct (C6_optional_view_flag bs0 pB v2 m2 _ Hsb Hd)
    as ((ro & eo & Ho & Hro & _ & Hno) & (rc & ec & Hc & Hrc & Hic & _)
        & (ra & ea & Ha & Hra & _ & Hna)).
  split; [|split].
  - rewrite Ho, (Hno Hro), Hro. reflexivity.
  - rewrite Hc. rewrite (proj2 Hic); [by rewrite Hrc|].
    rewrite Hrc. by eexists.
  - rewrite Ha, (Hna Hra), Hra. reflexivity.
Defined.

(** With nil passed in, neither call is refused: construction returns a source
    and the update completes; the panic comes from the accessor called
    afterwards. *)
Lemma C7_counterexample_nil_not_rejected :
  NewBundleSource NilPtr m0 = Ok (bs0, stored m0 l0 NilPtr)
  /\ ~ rejected (NewBundleSource NilPtr) m0
  /\ Update bs0 NilPtr m1 = Ok (tt, stored m1 l0 NilPtr)
  /\ ~ rejected (Update bs0 NilPtr) m1
  /\ StableBundle bs0 (stored m1 l0 NilPtr)
     = Ok (NilPtr, loaded (stored m1 l0 NilPtr) l0)
  /\ PolicyManager bs0 (stored m1 l0 NilPtr) = Panicked NilDereference.
Proof.
  assert (Hnew : NewBundleSource NilPtr m0 = Ok (bs0, stored m0 l0 NilPtr))
    by (vm_compute; reflexivity).
  assert (Hup : Update bs0 NilPtr m1 = Ok (tt, stored m1 l0 NilPtr))
    by (vm_compute; reflexivity).
  split; [exact Hnew|]. split.
  { intros [e He]. rewrite Hnew in He. discriminate. }
  split; [exact Hup|]. split.
  { intros [e He]. rewrite Hup in He. discriminate. }
  split; vm_compute; reflexivity.
Qed.

Lemma C7_witness :
  Update bs0 pB m1 = Ok (tt, m2)
  /\ exists m', Update bs0 NilPtr m1 = Ok (tt, m')
                /\ StableBundle bs0 m' = Ok (NilPtr, loaded m' l0)
                /\ OrdererConfig bs0 m' = Panicked NilDereference.
Proof.
  assert (Hup : Update bs0 pB m1 = Ok (tt, m2)) by (vm_compute; reflexivity).
  split; [exact Hup|].
  destruct (proj2 C7_nil_bundle_accepted_fault_at_read bs0 pB m1 m2 Hup)
    as (l & m' & m'' & Hl & Hnil & Hsb & _ & _ & _ & Ho & _).
  exists m'. split; [exact Hnil|]. split; [|exact Ho].
  rewrite Hsb. f_equal. f_equal.
  destruct (StableBundle_inv _ _ _ _ Hsb) as (l' & Hl' & _ & ->).
  by inversion Hl'.
Defined.

Lemma C8_witness :
  exists l ma hs mb p mc,
    NewBundleSource pA m0 = Ok (Addr l, ma)
    /\ run_calls (Addr l) [CallStableBundle; CallUpdate pB; CallStableBundle] ma
       = Ok (hs, mb)
    /\ hs = [pA; pB]
    /\ Forall (fun h => h <> NilPtr /\ h ∈ [pA; pB]) hs
    /\ holds mb l p
    /\ StableBundle (Addr l) mb = Ok (p, mc)
    /\ p <> NilPtr
    /\ p ∈ [pA; pB].
Proof.
  apply (C8_slot_never_empty pA
           [CallStableBundle; CallUpdate pB; CallStableBundle] m0).
  - discriminate.
  - repeat constructor. discriminate.
Defined.

Lemma C9_witness :
  holds m2 l0 pB
  /\ Update bs0 pA m2 = Ok (tt, stored m2 l0 pA)
  /\ result (StableBundle bs0 (stored m2 l0 pA)) = Ok pA
  /\ observe ((_ <- Update bs0 NilPtr ;; Update bs0 pA) m2)
     = Ok (tt, heap_of (stored m2 l0 pA))
  /\ result ((_ <- Update bs0 NilPtr ;; _ <- Update bs0 pA ;; StableBundle bs0) m2)
     = Ok pA
  /\ observe ((_ <- Update bs0 pA ;; Update bs0 pA) m2)
     = Ok (tt, heap_of (stored m2 l0 pA)).
Proof.
  assert (Hh : holds m2 l0 pB) by (vm_compute; reflexivity).
  destruct (C9_Update_last_writer_wins l0 pB NilPtr pA m2 Hh)
    as (Hup & _ & Hread & _ & Hseq & Hseqread & Htwice & _).
  split; [exact Hh|]. split; [exact Hup|]. split; [exact Hread|].
  split; [exact Hseq|]. split; [exact Hseqread|exact Htwice].
Defined.


(** * Further properties of the holder *)

Section Outcomes.

Context {C : Components}.

Implicit Types (m : mem) (l : loc) (bs p n : ptr) (cs : list call).

(** X1. What [StableBundle] does on every receiver and memory: it returns [p]
    exactly when the receiver is an allocated source whose slot holds the
    bundle pointer [p], and then only records the load; it panics on the nil
    dereference exactly when the receiver is nil or not allocated, and on the
    type assertion exactly when the slot holds anything but a bundle pointer
    (nothing stored yet included); it raises no other panic. *)
Theorem X1_StableBundle_outcomes bs m :
  (forall p m',
      StableBundle bs m = Ok (p, m')
      <-> exists l, bs = Addr l /\ holds m l p /\ m' = loaded m l)
  /\ (StableBundle bs m = Panicked NilDereference
      <-> bs = NilPtr \/ exists l, bs = Addr l /\ sources m !! l = None)
  /\ (StableBundle bs m = Panicked InterfaceConversion
      <-> exists l src, bs = Addr l /\ sources m !! l = Some src
                        /\ typeof (atomic.Load (bundle src)) <> Some TBundlePtr)
  /\ StableBundle bs m <> Panicked StoreOfNil
  /\ StableBundle bs m <> Panicked StoreInconsistentType.
Proof.
  split.
  { intros p m'. split.
    - apply StableBundle_inv.
    - intros (l & -> & Hh & ->). by apply StableBundle_holds. }
  unfold StableBundle, bind, bundle_Load.
  destruct bs as [|l].
  { repeat split; try discriminate.
    - intros _. by left.
    - intros (l & src & Hl & _). discriminate. }
  destruct (sources m !! l) as [[[x]]|] eqn:Hsrc.
  - destruct x as [|q|name]; simpl; repeat split; try discriminate.
    + intros [Hn|(l' & Hl & Hnone)]; [discriminate|].
      inversion Hl; subst l'. congruence.
    + intros _. exists l, (mkBundleSource (atomic.mkValue NilAny)). done.
    + intros [Hn|(l' & Hl & Hnone)]; [discriminate|].
      inversion Hl; subst l'. congruence.
    + intros (l' & src & Hl & Hs & Hty). inversion Hl; subst l'.
      rewrite Hsrc in Hs. inversion Hs; subst src. by destruct Hty.
    + intros [Hn|(l' & Hl & Hnone)]; [discriminate|].
      inversion Hl; subst l'. congruence.
    + intros _. exists l, (mkBundleSource (atomic.mkValue (Foreign name))). done.
  - repeat split; try discriminate.
    + intros _. right. by exists l.
    + intros (l' & src & Hl & Hs & _). inversion Hl; subst l'. congruence.
Qed.

(** X3. What [Update] does on every receiver and memory: it completes exactly
    when the receiver is an allocated source whose slot is still empty or
    holds a bundle pointer, and then the source holds the new pointer; the
    argument plays no part in that, so nil is stored like any other pointer
    and the store-of-nil panic of [atomic.Value] is never raised. *)
Theorem X3_Update_outcomes bs n m :
  (forall m',
      Update bs n m = Ok (tt, m')
      <-> exists l src, bs = Addr l /\ sources m !! l = Some src
                        /\ (typeof (atomic.Load (bundle src)) = None
                            \/ typeof (atomic.Load (bundle src)) = Some TBundlePtr)
                        /\ m' = stored m l n)
  /\ (Update bs n m = Panicked NilDereference
      <-> bs = NilPtr \/ exists l, bs = Addr l /\ sources m !! l = None)
  /\ (Update bs n m = Panicked StoreInconsistentType
      <-> exists l src name, bs = Addr l /\ sources m !! l = Some src
                             /\ typeof (atomic.Load (bundle src)) = Some (TOther name))
  /\ Update bs n m <> Panicked StoreOfNil
  /\ Update bs n m <> Panicked InterfaceConversion.
Proof.
  unfold Update, bundle_Store.
  destruct bs as [|l].
  { repeat split; try discriminate.
    - intros (l & src & Hl & _). discriminate.
    - intros _. by left.
    - intros (l & src & name & Hl & _). discriminate. }
  destruct (sources m !! l) as [[[x]]|] eqn:Hsrc.
  - destruct x as [|q|name]; simpl; repeat split; try discriminate.
    + intros H. inversion H; subst m'.
      exists l, (mkBundleSource (atomic.mkValue NilAny)).
      repeat split; try done. by left.
    + intros (l' & src & Hl & _ & _ & ->). by inversion Hl.
    + intros [Hn|(l' & Hl & Hnone)]; [discriminate|].
      inversion Hl; subst l'. congruence.
    + intros (l' & src & name & Hl & Hs & Hty). inversion Hl; subst l'.
      rewrite Hsrc in Hs. inversion Hs; subst src. discriminate.
    + intros H. inversion H; subst m'.
      exists l, (mkBundleSource (atomic.mkValue (BundlePtr q))).
      repeat split; try done. by right.
    + intros (l' & src & Hl & _ & _ & ->). by inversion Hl.
    + intros [Hn|(l' & Hl & Hnone)]; [discriminate|].
      inversion Hl; subst l'. congruence.
    + intros (l' & src & name & Hl & Hs & Hty). inversion Hl; subst l'.
      rewrite Hsrc in Hs. inversion Hs; subst src. discriminate.
    + intros (l' & src & Hl & Hs & Hty & _). inversion Hl; subst l'.
      rewrite Hsrc in Hs. inversion Hs; subst src.
      destruct Hty; discriminate.
    + intros [Hn|(l' & Hl & Hnone)]; [discriminate|].
      inversion Hl; subst l'. congruence.
    + intros _. exists l, (mkBundleSource (atomic.mkValue (Foreign name))), name.
      done.
  - repeat split; try discriminate.
    + intros (l' & src & Hl & Hs & _). inversion Hl; subst l'. congruence.
    + intros _. right. by exists l.
    + intros (l' & src & name & Hl & Hs & _). inversion Hl; subst l'. congruence.
Qed.

(** ** What a read depends on *)

(** A read of the source at [l] depends on the slot of that source and on the
    bundles only. *)
Lemma StableBundle_frame m m' l :
  sources m' !! l = sources m !! l ->
  result (StableBundle (Addr l) m') = result (StableBundle (Addr l) m).
Proof.
  intros Hs. unfold StableBundle, bind, bundle_Load. rewrite Hs.
  destruct (sources m !! l) as [[[x]]|]; [|done].
  by destruct x.
Qed.

Lemma accessor_frame {A} (f : Bundle -> A) m m' l :
  sources m' !! l = sources m !! l ->
  bundles m' = bundles m ->
  result ((p <- StableBundle (Addr l) ;; x <- deref_Bundle p ;; ret (f x)) m')
  = result ((p <- StableBundle (Addr l) ;; x <- deref_Bundle p ;; ret (f x)) m).
Proof.
  intros Hs Hb. unfold StableBundle, bind, bundle_Load. rewrite Hs.
  destruct (sources m !! l) as [[[x]]|]; [|done].
  destruct x as [|p|name]; simpl; try done.
  unfold deref_Bundle. destruct p as [|a]; [done|]. simpl.
  rewrite Hb. by destruct (bundles m !! a).
Qed.

(** The outcome of an [Update] of the source at [l] depends on the slot of
    that source only. *)
Lemma Update_frame m m' l n :
  sources m' !! l = sources m !! l ->
  Update (Addr l) n m = Ok (tt, stored m l n) ->
  Update (Addr l) n m' = Ok (tt, stored m' l n).
Proof.
  intros Hs. unfold Update, bundle_Store. rewrite Hs.
  destruct (sources m !! l) as [src|]; [|discriminate].
  destruct (atomic.Store (bundle src) (BundlePtr n)) as [x|e] eqn:Hst;
    [|discriminate].
  apply Store_BundlePtr_inv in Hst. by subst x.
Qed.

(** A call sequence on one source leaves every other source as it was. *)
Lemma run_calls_other_sources cs : forall m l hs m2 l',
  run_calls (Addr l) cs m = Ok (hs, m2) ->
  l' <> l ->
  sources m2 !! l' = sources m !! l'.
Proof.
  induction cs as [|c cs IH]; intros m l hs m2 l' Hrun Hne.
  - inversion Hrun. reflexivity.
  - destruct c as [n|]; simpl in Hrun; unfold bind in Hrun.
    + destruct (Update (Addr l) n m) as [[[] m1]|e] eqn:Hup; [|discriminate].
      destruct (Update_inv _ _ _ _ Hup) as (l0 & Hl & _ & ->).
      inversion Hl; subst l0.
      rewrite (IH _ _ _ _ _ Hrun Hne). unfold stored; simpl.
      by apply lookup_insert_ne.
    + destruct (StableBundle (Addr l) m) as [[p m1]|e] eqn:Hsb; [|discriminate].
      destruct (StableBundle_inv _ _ _ _ Hsb) as (l0 & Hl & _ & ->).
      destruct (run_calls (Addr l) cs (loaded m l0)) as [[ps m3]|e] eqn:Hr;
        [|discriminate].
      inversion Hrun; subst. by rewrite (IH _ _ _ _ _ Hr Hne).
Qed.

(** ** Edge cases and composition *)

(** X2. A zero [BundleSource], built without [NewBundleSource], cannot be
    read: [StableBundle] and every accessor panic on the type assertion,
    because the slot still holds the nil interface.  [Update] works on it, and
    after the first [Update n] the source reads as [n]. *)
Theorem X2_zero_source_unreadable_until_Update m l n :
  zero_source m l ->
  StableBundle (Addr l) m = Panicked InterfaceConversion
  /\ PolicyManager (Addr l) m = Panicked InterfaceConversion
  /\ MSPManager (Addr l) m = Panicked InterfaceConversion
  /\ ChannelConfig (Addr l) m = Panicked InterfaceConversion
  /\ OrdererConfig (Addr l) m = Panicked InterfaceConversion
  /\ ConsortiumsConfig (Addr l) m = Panicked InterfaceConversion
  /\ ApplicationConfig (Addr l) m = Panicked InterfaceConversion
  /\ ConfigtxManager (Addr l) m = Panicked InterfaceConversion
  /\ Update (Addr l) n m = Ok (tt, stored m l n)
  /\ StableBundle (Addr l) (stored m l n) = Ok (n, loaded (stored m l n) l).
Proof.
  unfold zero_source. intros Hz.
  assert (Hsb : StableBundle (Addr l) m = Panicked InterfaceConversion).
  { unfold StableBundle, bind, bundle_Load. by rewrite Hz. }
  unfold PolicyManager, MSPManager, ChannelConfig, OrdererConfig,
    ConsortiumsConfig, ApplicationConfig, ConfigtxManager.
  repeat split; try (unfold bind at 1; by rewrite Hsb).
  - exact Hsb.
  - unfold Update, bundle_Store. by rewrite Hz.
  - apply StableBundle_holds, holds_stored.
Qed.

(** X5. An [Update] of one source is invisible through every other source:
    what [StableBundle] and the accessors return (or the panic they raise) on
    a different source is the same before and after. *)
Theorem X5_Update_invisible_through_other_sources l1 l2 n m m' :
  l1 <> l2 ->
  Update (Addr l1) n m = Ok (tt, m') ->
  result (StableBundle (Addr l2) m') = result (StableBundle (Addr l2) m)
  /\ result (PolicyManager (Addr l2) m') = result (PolicyManager (Addr l2) m)
  /\ result (MSPManager (Addr l2) m') = result (MSPManager (Addr l2) m)
  /\ result (ChannelConfig (Addr l2) m') = result (ChannelConfig (Addr l2) m)
  /\ result (OrdererConfig (Addr l2) m') = result (OrdererConfig (Addr l2) m)
  /\ result (ConsortiumsConfig (Addr l2) m')
     = result (ConsortiumsConfig (Addr l2) m)
  /\ result (ApplicationConfig (Addr l2) m')
     = result (ApplicationConfig (Addr l2) m)
  /\ result (ConfigtxManager (Addr l2) m') = result (ConfigtxManager (Addr l2) m).
Proof.
  intros Hne Hup.
  destruct (Update_inv _ _ _ _ Hup) as (l & Hl & _ & ->).
  inversion Hl; subst l. clear Hl.
  assert (Hs : sources (stored m l1 n) !! l2 = sources m !! l2).
  { unfold stored; simpl. by apply lookup_insert_ne. }
  assert (Hb : bundles (stored m l1 n) = bundles m) by reflexivity.
  split; [by apply StableBundle_frame|].
  unfold PolicyManager, MSPManager, ChannelConfig, OrdererConfig,
    ConsortiumsConfig, ApplicationConfig, ConfigtxManager.
  repeat split.
  - by apply accessor_frame.
  - by apply accessor_frame.
  - by apply (accessor_frame (fun x => Root_Channel (rootConfig x))).
  - by apply (accessor_frame
                (fun x => (Root_Orderer (rootConfig x),
                           not_nil (Root_Orderer (rootConfig x))))).
  - by apply (accessor_frame
                (fun x => (Root_Consortiums (rootConfig x),
                           not_nil (Root_Consortiums (rootConfig x))))).
  - by apply (accessor_frame
                (fun x => (Root_Application (rootConfig x),
                           not_nil (Root_Application (rootConfig x))))).
  - by apply accessor_frame.
Qed.

(** X6. Two sources built one after the other are different objects, each
    reading as the bundle it was built with; building them leaves every
    bundle and every source that existed before untouched. *)
Theorem X6_new_sources_are_distinct (a b : ptr) m :
  exists la lb ma mb,
    NewBundleSource a m = Ok (Addr la, ma)
    /\ NewBundleSource b ma = Ok (Addr lb, mb)
    /\ la <> lb
    /\ result (StableBundle (Addr la) mb) = Ok a
    /\ result (StableBundle (Addr lb) mb) = Ok b
    /\ bundles mb = bundles m
    /\ forall l, is_Some (sources m !! l) ->
                 l <> la /\ l <> lb /\ sources mb !! l = sources m !! l.
Proof.
  set (la := fresh (dom (sources m))).
  set (ma := stored m la a).
  set (lb := fresh (dom (sources ma))).
  assert (Hla : sources m !! la = None) by apply fresh_source_unallocated.
  assert (Hlb : sources ma !! lb = None) by apply fresh_source_unallocated.
  assert (Hne : la <> lb).
  { intros Heq. rewrite <- Heq in Hlb.
    pose proof (holds_stored m la a) as Hh. unfold holds in Hh.
    fold ma in Hh. congruence. }
  exists la, lb, ma, (stored ma lb b).
  split; [apply NewBundleSource_eq|]. split; [apply NewBundleSource_eq|].
  split; [exact Hne|]. split.
  { rewrite (StableBundle_holds (stored ma lb b) la a); [done|].
    unfold holds, stored; simpl. rewrite lookup_insert_ne by done.
    apply lookup_insert_eq. }
  split.
  { by rewrite (StableBundle_holds _ _ _ (holds_stored ma lb b)). }
  split; [reflexivity|].
  intros l [src Hsrc].
  assert (Hl1 : l <> la) by congruence.
  assert (Hl2 : l <> lb).
  { intros ->. unfold ma, stored in Hlb; simpl in Hlb.
    rewrite lookup_insert_ne in Hlb by done. congruence. }
  split; [exact Hl1|]. split; [exact Hl2|].
  unfold ma, stored; simpl.
  rewrite lookup_insert_ne by done. by rewrite lookup_insert_ne by done.
Qed.

(** X7. Updates of two different sources commute: when each completes on its
    own, both orders complete and leave the same bundles and sources. *)
Theorem X7_Updates_of_distinct_sources_commute bs1 bs2 (a b : ptr) m m1 m2 :
  bs1 <> bs2 ->
  Update bs1 a m = Ok (tt, m1) ->
  Update bs2 b m = Ok (tt, m2) ->
  exists h,
    observe ((_ <- Update bs1 a ;; Update bs2 b) m) = Ok (tt, h)
    /\ observe ((_ <- Update bs2 b ;; Update bs1 a) m) = Ok (tt, h).
Proof.
  intros Hne H1 H2.
  destruct (Update_inv _ _ _ _ H1) as (l1 & -> & _ & ->).
  destruct (Update_inv _ _ _ _ H2) as (l2 & -> & _ & ->).
  assert (Hl : l1 <> l2) by congruence.
  assert (H12 : Update (Addr l2) b (stored m l1 a)
                = Ok (tt, stored (stored m l1 a) l2 b)).
  { apply (Update_frame m); [|exact H2].
    unfold stored; simpl. by apply lookup_insert_ne. }
  assert (H21 : Update (Addr l1) a (stored m l2 b)
                = Ok (tt, stored (stored m l2 b) l1 a)).
  { apply (Update_frame m); [|exact H1].
    unfold stored; simpl. by apply lookup_insert_ne. }
  exists (heap_of (stored (stored m l1 a) l2 b)).
  unfold bind. rewrite H1, H2, H12, H21. split; [reflexivity|].
  simpl. unfold heap_of, stored; simpl.
  by rewrite (insert_insert_ne _ l1 l2).
Qed.

(** X8. With no [Update] in between, two accessors called back to back on a
    source read the same bundle: [OrdererConfig] then [MSPManager] give the
    ordering view and the MSP manager of the one bundle the source holds. *)
Theorem X8_accessors_agree_without_Update bs la (a : Bundle) m m1 :
  StableBundle bs m = Ok (Addr la, m1) ->
  bundles m !! la = Some a ->
  result ((o <- OrdererConfig bs ;;
           x <- MSPManager bs ;;
           ret (o, x)) m)
  = Ok ((Root_Orderer (rootConfig a), not_nil (Root_Orderer (rootConfig a))),
        mspManager a).
Proof.
  intros Hsb Ha.
  destruct (StableBundle_inv _ _ _ _ Hsb) as (l & -> & Hh & _).
  unfold bind at 1. unfold OrdererConfig.
  rewrite (accessor_holds
             (fun x => (Root_Orderer (rootConfig x),
                        not_nil (Root_Orderer (rootConfig x)))) _ _ _ _ Hh Ha).
  unfold bind at 1. unfold MSPManager.
  rewrite (accessor_holds mspManager (loaded m l) l la a
             (holds_loaded _ _ l _ Hh) Ha).
  reflexivity.
Qed.

(** X9. On any source that can be read, no sequence of [Update] and
    [StableBundle] calls panics: every handle is the bundle of the latest
    [Update] before it (the one held at the start if there was none), the
    source ends up reading as the last bundle installed, and the sequence
    changes no bundle and no other source. *)
Theorem X9_calls_on_readable_source bs cur cs m m0 :
  StableBundle bs m = Ok (cur, m0) ->
  exists hs m2,
    run_calls bs cs m = Ok (hs, m2)
    /\ hs = latest_handles cur cs
    /\ result (StableBundle bs m2) = Ok (default cur (last (installed_by cs)))
    /\ bundles m2 = bundles m
    /\ forall l, bs <> Addr l -> sources m2 !! l = sources m !! l.
Proof.
  intros Hsb.
  destruct (StableBundle_inv _ _ _ _ Hsb) as (l & -> & Hh & _).
  destruct (run_calls_holds cs m l cur Hh) as (m2 & Hrun & Hh2 & Hb & _).
  exists (latest_handles cur cs), m2.
  split; [exact Hrun|]. split; [reflexivity|]. split.
  { by rewrite (StableBundle_holds _ _ _ Hh2). }
  split; [exact Hb|].
  intros l' Hne. apply (run_calls_other_sources cs m l _ _ l' Hrun). congruence.
Qed.

End Outcomes.

(** * The tagged scenario, continued: a zero source and a second source *)

Example scenario_second_source : NewBundleSource pB m1 = Ok (bs1, m3).
Proof. vm_compute. reflexivity. Qed.

Lemma X2_witness :
  zero_source mz l0
  /\ StableBundle bs0 mz = Panicked InterfaceConversion
  /\ OrdererConfig bs0 mz = Panicked InterfaceConversion
  /\ Update bs0 pA mz = Ok (tt, stored mz l0 pA)
  /\ StableBundle bs0 (stored mz l0 pA) = Ok (pA, loaded (stored mz l0 pA) l0).
Proof.
  assert (Hz : zero_source mz l0) by (vm_compute; reflexivity).
  destruct (X2_zero_source_unreadable_until_Update mz l0 pA Hz)
    as (Hsb & _ & _ & _ & Ho & _ & _ & _ & Hup & Hread).
  split; [exact Hz|]. split; [exact Hsb|]. split; [exact Ho|].
  split; [exact Hup|exact Hread].
Defined.

Lemma X5_witness :
  l0 <> l1
  /\ Update bs0 pB m3 = Ok (tt, stored m3 l0 pB)
  /\ result (StableBundle bs1 (stored m3 l0 pB)) = Ok pB
  /\ result (StableBundle bs0 (stored m3 l0 pB)) = Ok pB
  /\ result (StableBundle bs0 m3) = Ok pA
  /\ result (MSPManager bs1 (stored m3 l0 pB)) = Ok "msp-v2".
Proof.
  assert (Hne : l0 <> l1) by discriminate.
  assert (Hup : Update bs0 pB m3 = Ok (tt, stored m3 l0 pB))
    by (vm_compute; reflexivity).
  destruct (X5_Update_invisible_through_other_sources l0 l1 pB m3 _ Hne Hup)
    as (Hsb & _ & Hmsp & _).
  split; [exact Hne|]. split; [exact Hup|]. split.
  { unfold bs1. rewrite Hsb. vm_compute. reflexivity. }
  split; [vm_compute; reflexivity|]. split; [vm_compute; reflexivity|].
  unfold bs1. rewrite Hmsp. vm_compute. reflexivity.
Defined.

Lemma X7_witness :
  exists h,
    observe ((_ <- Update bs0 pB ;; Update bs1 pA) m3) = Ok (tt, h)
    /\ observe ((_ <- Update bs1 pA ;; Update bs0 pB) m3) = Ok (tt, h).
Proof.
  apply (X7_Updates_of_distinct_sources_commute bs0 bs1 pB pA m3
           (stored m3 l0 pB) (stored m3 l1 pA)).
  - discriminate.
  - vm_compute. reflexivity.
  - vm_compute. reflexivity.
Defined.

Lemma X8_witness :
  result ((o <- OrdererConfig bs0 ;;
           x <- MSPManager bs0 ;;
           ret (o, x)) m1)
  = Ok ((Some "orderer-v1", true), "msp-v1").
Proof.
  apply (X8_accessors_agree_without_Update bs0 10%positive v1 m1 (loaded m1 l0)).
  - vm_compute. reflexivity.
  - vm_compute. reflexivity.
Defined.

Lemma X9_witness :
  exists hs mb,
    run_calls bs0 [CallStableBundle; CallUpdate pB; CallStableBundle;
                   CallUpdate NilPtr; CallStableBundle] m3
    = Ok (hs, mb)
    /\ hs = [pA; pB; NilPtr]
    /\ result (StableBundle bs0 mb) = Ok NilPtr
    /\ bundles mb = bundles m3
    /\ forall l, bs0 <> Addr l -> sources mb !! l = sources m3 !! l.
Proof.
  apply (X9_calls_on_readable_source bs0 pA
           [CallStableBundle; CallUpdate pB; CallStableBundle;
            CallUpdate NilPtr; CallStableBundle] m3 (loaded m3 l0)).
  vm_compute. reflexivity.
Defined.
